(** * The Bokeh-to-image bridge

    A shallow embedding of the two glue modules

      - [pywry/bokeh_io.py]            ([export_bokeh_to_png]) and
      - [wry_bokeh_helper/bokeh_io.py] ([bokeh_to_image]),

    together with the properties their specification states about them.

    Both functions are straight-line Python: [json.dumps] in one of them,
    a call to the native renderer, [urllib.request.urlopen] on what it
    returned, [response.read()], [io.BytesIO] and [PIL.Image.open].  Every
    one of these may raise, and all but [json.dumps] and [io.BytesIO] may
    read or change the world outside the function, so the glue is written
    in a small state-and-exception monad over an abstract world; each call
    that acts on the world is also recorded in a call trace, which is what
    statements such as "performs no fetch" are about. *)

From Stdlib Require Import String List ZArith Bool Arith Lia DecimalString.
From Stdlib.Strings Require Import Byte.
Import ListNotations.
Local Open Scope string_scope.
Local Open Scope list_scope.

Set Implicit Arguments.
Set Warnings "-register-all".

(** ** Data model *)

Definition bytes := list byte.

(** A Python value as a plot description may hold it, the [Any] of
    [dict[str, Any]]: the JSON-compatible values, a float kept as the text
    [repr] prints for it, and [JOpaque] for an object of any other type,
    kept as the name of its type. *)
Inductive Json : Type :=
| JNull
| JBool (b : bool)
| JInt (n : Z)
| JFloat (repr : string)
| JStr (s : string)
| JArr (items : list Json)
| JObj (members : list (string * Json))
| JOpaque (type_name : string).

(** [bokeh_json_item : dict[str, Any]], in insertion order. *)
Definition PlotDescription := list (string * Json).

(** What [render_bokeh] returns and [urlopen] receives. *)
Definition Locator := string.

(** A raised Python exception: its class and its message. *)
Record Exn : Type := mkExn { exn_class : string; exn_msg : string }.

(** The result of a Python call: a value, or a raised exception. *)
Inductive Outcome (A : Type) : Type :=
| Return (a : A)
| Raise (e : Exn).
Arguments Return {A} a.
Arguments Raise {A} e.

Definition is_raise {A} (o : Outcome A) : bool :=
  match o with Return _ => false | Raise _ => true end.

(** [io.BytesIO(data)]: an in-memory buffer holding [data], positioned at
    its start. *)
Record BytesIO : Type := mkBytesIO { getvalue : bytes; tell : nat }.

Definition io_BytesIO (data : bytes) : BytesIO :=
  {| getvalue := data; tell := 0 |}.

(** [PIL.Image.Image] as returned by [Image.open]: the identified format,
    the pixel dimensions (width, height), and the buffer it was opened on. *)
Record Image : Type := mkImage {
  im_format : string;
  im_size : nat * nat;
  im_fp : BytesIO
}.

(** The response object [urlopen] returns, by identity. *)
Definition Handle := nat.

(** The first eight bytes of every PNG datastream. *)
Definition png_signature : bytes :=
  [x89; x50; x4e; x47; x0d; x0a; x1a; x0a]%byte.

Fixpoint starts_with (prefix data : bytes) : bool :=
  match prefix, data with
  | [], _ => true
  | _ :: _, [] => false
  | p :: prefix', b :: data' => Byte.eqb p b && starts_with prefix' data'
  end.

(** Necessary for [data] to be a valid PNG. *)
Definition has_png_signature (data : bytes) : bool :=
  starts_with png_signature data.

Section Bridge.

(** [ResourceType] is declared by the native extension module only; the
    glue never inspects it. *)
Variable ResourceType : Type.

(** [resource : tuple[ResourceType, str] | None]. *)
Definition Resource : Type := ResourceType * string.

(** The first argument of [render_bokeh]: [pywry] hands it the mapping,
    [wry_bokeh_helper] a [str]. *)
Inductive RenderArg : Type :=
| ArgDict (d : PlotDescription)
| ArgStr (s : string).

(** The state outside the function that the collaborators read and
    change: the renderer, the network and file system, open streams,
    module globals of the libraries. *)
Variable World : Type.

(** *** The collaborators

    None of them is code of this repository.  Each takes the arguments
    the Python call has (defaults written out).  [json.dumps] gives the
    text or raises ([TypeError] on a value that is not JSON-compatible,
    [ValueError] on an integer too long to print, [RecursionError] on
    deep nesting) and leaves the world alone; the others also take the
    current world and give the world after the call. *)
Record Env : Type := mkEnv {
  (** [json.dumps(obj)]. *)
  json_dumps : PlotDescription -> Outcome string;
  (** [render_bokeh(item, resource)] of the native extension. *)
  native_render :
    RenderArg -> option Resource -> World -> Outcome Locator * World;
  (** [urllib.request.urlopen(url)]. *)
  net_urlopen : Locator -> World -> Outcome Handle * World;
  (** [response.read(amt=None)]; [None] reads until end of stream. *)
  stream_read : Handle -> option nat -> World -> Outcome bytes * World;
  (** [Image.open(fp, formats=None)]; [None] tries every registered
      format. *)
  pil_open :
    BytesIO -> option (list string) -> World -> Outcome Image * World
}.

(** *** Call trace *)
Inductive Event : Type :=
| CallRender (arg : RenderArg) (resource : option Resource)
| CallUrlopen (url : Locator)
| CallRead (response : Handle) (amt : option nat)
| CallImageOpen (fp : BytesIO) (formats : option (list string)).

Definition is_render (ev : Event) : bool :=
  match ev with CallRender _ _ => true | _ => false end.
Definition is_urlopen (ev : Event) : bool :=
  match ev with CallUrlopen _ => true | _ => false end.
Definition is_read (ev : Event) : bool :=
  match ev with CallRead _ _ => true | _ => false end.
Definition is_decode (ev : Event) : bool :=
  match ev with CallImageOpen _ _ => true | _ => false end.

(** *** The monad: world and trace threaded, exceptions propagated *)
Record Run (A : Type) : Type := mkRun {
  outcome : Outcome A;
  world : World;
  calls : list Event
}.

Definition M (A : Type) : Type := World -> list Event -> Run A.

Definition ret {A} (a : A) : M A :=
  fun w tr => mkRun (Return a) w tr.

Definition bind {A B} (m : M A) (k : A -> M B) : M B :=
  fun w tr =>
    let r := m w tr in
    match outcome r with
    | Return a => k a (world r) (calls r)
    | Raise e => mkRun (Raise e) (world r) (calls r)
    end.

(** An expression that acts on nothing: its value, or what it raises. *)
Definition eval {A} (o : Outcome A) : M A :=
  fun w tr => mkRun o w tr.

(** A call to a collaborator: log it, then let it act on the world. *)
Definition call {A} (ev : Event) (f : World -> Outcome A * World) : M A :=
  fun w tr => let (o, w') := f w in mkRun o w' (tr ++ [ev]).

(** A whole invocation, from an empty trace. *)
Definition run {A} (m : M A) (w : World) : Run A := m w [].

Notation "x <- m ;; k" := (bind m (fun x => k))
  (at level 100, m at next level, right associativity).

Variable E : Env.

Definition render_bokeh (item : RenderArg) (resource : option Resource)
  : M Locator :=
  call (CallRender item resource) (native_render E item resource).

Definition urlopen (url : Locator) : M Handle :=
  call (CallUrlopen url) (net_urlopen E url).

Definition read (response : Handle) (amt : option nat) : M bytes :=
  call (CallRead response amt) (stream_read E response amt).

Definition Image_open (fp : BytesIO) (formats : option (list string))
  : M Image :=
  call (CallImageOpen fp formats) (pil_open E fp formats).

(** *** The glue *)

(** [pywry/bokeh_io.py] *)
Definition export_bokeh_to_png
    (bokeh_json_item : PlotDescription) (resource : option Resource)
  : M Image :=
  png <- render_bokeh (ArgDict bokeh_json_item) resource ;;
  response <- urlopen png ;;
  data <- read response None ;;
  Image_open (io_BytesIO data) None.

(** [wry_bokeh_helper/bokeh_io.py]; the argument [json.dumps(...)] is
    evaluated before [render_bokeh] is called. *)
Definition bokeh_to_image
    (bokeh_json_item : PlotDescription) (resource : option Resource)
  : M Image :=
  item <- eval (json_dumps E bokeh_json_item) ;;
  png <- render_bokeh (ArgStr item) resource ;;
  response <- urlopen png ;;
  data <- read response None ;;
  Image_open (io_BytesIO data) None.

(** The specification's [convert] is either of the two. *)
Inductive Variant : Type := Pywry | WryBokehHelper.

Definition convert (v : Variant) : PlotDescription -> option Resource -> M Image :=
  match v with
  | Pywry => export_bokeh_to_png
  | WryBokehHelper => bokeh_to_image
  end.

(** What each variant evaluates as first argument of [render_bokeh]: the
    mapping itself, or the outcome of [json.dumps] on it. *)
Definition render_arg (v : Variant) (d : PlotDescription)
  : Outcome RenderArg :=
  match v with
  | Pywry => Return (ArgDict d)
  | WryBokehHelper =>
      match json_dumps E d with
      | Return text => Return (ArgStr text)
      | Raise e => Raise e
      end
  end.

(** *** The specification's error taxonomy

    The glue wraps no exception; a failure is named after the call that
    raised, which is the last one in the trace.  An exception raised
    before any call, by [json.dumps], is none of the three. *)
Inductive Failure : Type := RenderFailure | FetchFailure | DecodeFailure.

Definition stage_of (ev : Event) : Failure :=
  match ev with
  | CallRender _ _ => RenderFailure
  | CallUrlopen _ | CallRead _ _ => FetchFailure
  | CallImageOpen _ _ => DecodeFailure
  end.

Definition failure_of {A} (r : Run A) : option (Failure * Exn) :=
  match outcome r with
  | Return _ => None
  | Raise e =>
      match rev (calls r) with
      | ev :: _ => Some (stage_of ev, e)
      | [] => None
      end
  end.

(** The steps after the render call, which the two variants share. *)
Definition fetch (url : Locator) : M bytes :=
  response <- urlopen url ;;
  read response None.

Definition decode (data : bytes) : M Image :=
  Image_open (io_BytesIO data) None.

(** The run that follows from what the renderer answered to
    [render_bokeh(item, resource)]: its exception, or fetching and decoding
    the locator it returned, in the world it left. *)
Definition after_render (item : RenderArg) (resource : option Resource)
    (answer : Outcome Locator * World) : Run Image :=
  match answer with
  | (Raise e, w1) => mkRun (Raise e) w1 [CallRender item resource]
  | (Return png, w1) =>
      (data <- fetch png ;; decode data) w1 [CallRender item resource]
  end.

End Bridge.

Arguments CallUrlopen {ResourceType} url.
Arguments CallRead {ResourceType} response amt.
Arguments CallImageOpen {ResourceType} fp formats.

Notation "x <- m ;; k" := (bind m (fun x => k))
  (at level 100, m at next level, right associativity).

(** ** Test doubles

    Concrete collaborators of the kind the specification's scenarios use:
    a renderer that answers from a fixed table or writes its image to
    disk, locators served from a fixed site or from the disk, response
    streams with a read position, [urlopen] installing the module's global
    opener as it does on first use, a decoder that, as [Image.open] does
    when no [formats] are given, identifies the format from the leading
    bytes, and a [json.dumps] with Python's limit on the digits of an
    integer. *)
Module Stub.

Inductive ResourceType : Type := Cdn | Server.

(** An open response: what reading it gives, and how far it was read. *)
Record Response : Type := mkResponse {
  content : Outcome bytes;
  pos : nat
}.

(** Responses by handle, the files on disk by path, and whether
    [urllib.request]'s global opener has been built. *)
Record World : Type := mkWorld {
  responses : list Response;
  storage : list (string * bytes);
  opener_installed : bool
}.

Definition set_responses (rs : list Response) (w : World) : World :=
  {| responses := rs; storage := storage w;
     opener_installed := opener_installed w |}.

Definition install_opener (w : World) : World :=
  {| responses := responses w; storage := storage w;
     opener_installed := true |}.

Definition write_file (path : string) (data : bytes) (w : World) : World :=
  {| responses := responses w; storage := (path, data) :: storage w;
     opener_installed := opener_installed w |}.

Fixpoint read_file (path : string) (files : list (string * bytes))
  : option bytes :=
  match files with
  | [] => None
  | (p, data) :: files' =>
      if String.eqb p path then Some data else read_file path files'
  end.

Fixpoint replace_nth {A} (n : nat) (x : A) (l : list A) : list A :=
  match n, l with
  | _, [] => []
  | 0, _ :: l' => x :: l'
  | S n', y :: l' => y :: replace_nth n' x l'
  end.

Definition closed_file : Exn :=
  mkExn "ValueError" "I/O operation on closed file.".

(** [urlopen] builds the global opener if there is none, then opens. *)
Definition stub_urlopen (serve : World -> Locator -> Outcome (Outcome bytes))
    (url : Locator) (w : World) : Outcome Handle * World :=
  match serve w url with
  | Raise e => (Raise e, install_opener w)
  | Return body =>
      (Return (List.length (responses w)),
       install_opener (set_responses (responses w ++ [mkResponse body 0]) w))
  end.

Definition stub_read (h : Handle) (amt : option nat) (w : World)
  : Outcome bytes * World :=
  match nth_error (responses w) h with
  | None => (Raise closed_file, w)
  | Some s =>
      match content s with
      | Raise e => (Raise e, w)
      | Return body =>
          let rest := skipn (pos s) body in
          let chunk := match amt with
                       | None => rest
                       | Some n => firstn n rest
                       end in
          (Return chunk,
           set_responses
             (replace_nth h (mkResponse (content s) (pos s + List.length chunk))
                (responses w)) w)
      end
  end.

(** Big-endian and little-endian unsigned integers. *)
Definition be_uint (bs : bytes) : nat :=
  fold_left (fun acc b => acc * 256 + N.to_nat (Byte.to_N b)) bs 0.

Definition le_uint (bs : bytes) : nat := be_uint (rev bs).

Definition slice (from len : nat) (data : bytes) : bytes :=
  firstn len (skipn from data).

Definition unidentified : Exn :=
  mkExn "UnidentifiedImageError" "cannot identify image file".

(** PNG: signature, then the IHDR chunk with width and height. *)
Definition png_open (fp : BytesIO) : Outcome Image :=
  let data := getvalue fp in
  if Nat.ltb (List.length data) 24 then Raise unidentified
  else Return (mkImage "PNG"
                 (be_uint (slice 16 4 data), be_uint (slice 20 4 data)) fp).

Definition gif_accept (prefix : bytes) : bool :=
  starts_with (list_byte_of_string "GIF87a") prefix
  || starts_with (list_byte_of_string "GIF89a") prefix.

(** GIF: signature, then the logical screen width and height. *)
Definition gif_open (fp : BytesIO) : Outcome Image :=
  let data := getvalue fp in
  if Nat.ltb (List.length data) 10 then Raise unidentified
  else Return (mkImage "GIF"
                 (le_uint (slice 6 2 data), le_uint (slice 8 2 data)) fp).

(** A registered format: name, test on the first bytes, opener. *)
Definition Plugin : Type := string * (bytes -> bool) * (BytesIO -> Outcome Image).

Definition registry : list Plugin :=
  [("PNG", has_png_signature, png_open); ("GIF", gif_accept, gif_open)].

Definition wanted (formats : option (list string)) (name : string) : bool :=
  match formats with
  | None => true
  | Some names => existsb (String.eqb name) names
  end.

(** The first registered, wanted format that accepts the bytes and opens
    them; a format whose opener fails is skipped. *)
Fixpoint open_core (plugins : list Plugin) (formats : option (list string))
    (fp : BytesIO) : Outcome Image :=
  match plugins with
  | [] => Raise unidentified
  | (name, accept, factory) :: rest =>
      if wanted formats name && accept (firstn 16 (getvalue fp)) then
        match factory fp with
        | Return im => Return im
        | Raise _ => open_core rest formats fp
        end
      else open_core rest formats fp
  end.

Definition stub_open (fp : BytesIO) (formats : option (list string))
    (w : World) : Outcome Image * World :=
  (open_core registry formats fp, w).

(** A decoder restricted to PNG, whatever [formats] says. *)
Definition png_only_open (fp : BytesIO) (formats : option (list string))
    (w : World) : Outcome Image * World :=
  (open_core registry (Some ["PNG"]) fp, w).

Definition quoted (s : string) : string :=
  let q := Ascii.ascii_of_nat 34 in String q (s ++ String q EmptyString)%string.

Definition and_then {A B} (o : Outcome A) (k : A -> Outcome B) : Outcome B :=
  match o with
  | Return a => k a
  | Raise e => Raise e
  end.

Definition too_many_digits : Exn :=
  mkExn "ValueError"
    "Exceeds the limit (4300 digits) for integer string conversion".

Definition not_serializable (type_name : string) : Exn :=
  mkExn "TypeError"
    ("Object of type " ++ type_name ++ " is not JSON serializable")%string.

(** More than 4300 decimal digits; an integer below 2^14284 has fewer. *)
Definition too_long (n : Z) : bool :=
  if (Z.log2 (Z.abs n) <? 14284)%Z then false
  else (10 ^ 4300 <=? Z.abs n)%Z.

(** A compact rendering of a JSON value with Python's default separators,
    for text without characters that need escaping.  Printing an integer
    of more than 4300 digits raises, and so does an object of another
    type. *)
Fixpoint dumps_value (j : Json) : Outcome string :=
  match j with
  | JNull => Return "null"
  | JBool true => Return "true"
  | JBool false => Return "false"
  | JInt n =>
      if too_long n then Raise too_many_digits
      else Return (NilZero.string_of_int (Z.to_int n))
  | JFloat repr => Return repr
  | JStr s => Return (quoted s)
  | JOpaque type_name => Raise (not_serializable type_name)
  | JArr items =>
      and_then
        ((fix go (l : list Json) : Outcome string :=
            match l with
            | [] => Return EmptyString
            | [x] => dumps_value x
            | x :: l' =>
                and_then (dumps_value x) (fun s =>
                and_then (go l') (fun t =>
                Return (s ++ ", " ++ t)%string))
            end) items)
        (fun s => Return ("[" ++ s ++ "]")%string)
  | JObj members =>
      and_then
        ((fix go (l : list (string * Json)) : Outcome string :=
            match l with
            | [] => Return EmptyString
            | [(k, x)] =>
                and_then (dumps_value x) (fun s =>
                Return (quoted k ++ ": " ++ s)%string)
            | (k, x) :: l' =>
                and_then (dumps_value x) (fun s =>
                and_then (go l') (fun t =>
                Return (quoted k ++ ": " ++ s ++ ", " ++ t)%string))
            end) members)
        (fun s => Return ("{" ++ s ++ "}")%string)
  end.

Definition dumps (d : PlotDescription) : Outcome string :=
  dumps_value (JObj d).

(** The collaborators, given how the renderer answers and what is served
    at each locator. *)
Definition env
    (render : RenderArg -> option (Resource ResourceType) -> World
              -> Outcome Locator * World)
    (serve : World -> Locator -> Outcome (Outcome bytes))
  : Env ResourceType World :=
  {| json_dumps := dumps;
     native_render := render;
     net_urlopen := stub_urlopen serve;
     stream_read := stub_read;
     pil_open := stub_open |}.

(** A 10x10 image, every pixel red. *)
Definition red_png : bytes :=
  [
   x89; x50; x4e; x47; x0d; x0a; x1a; x0a; x00; x00; x00; x0d;
   x49; x48; x44; x52; x00; x00; x00; x0a; x00; x00; x00; x0a;
   x08; x02; x00; x00; x00; x02; x50; x58; xea; x00; x00; x00;
   x12; x49; x44; x41; x54; x78; xda; x63; xf8; xcf; xc0; x80;
   x07; x31; x8c; x4a; x63; x43; x00; xb7; xca; x63; x9d; xd6;
   xd5; xef; x74; x00; x00; x00; x00; x49; x45; x4e; x44; xae;
   x42; x60; x82
  ]%byte.

(** A 1x1 GIF. *)
Definition dot_gif : bytes :=
  [
   x47; x49; x46; x38; x39; x61; x01; x00; x01; x00; x80; x00;
   x00; xff; xff; xff; x00; x00; x00; x21; xf9; x04; x01; x00;
   x00; x00; x00; x2c; x00; x00; x00; x00; x01; x00; x01; x00;
   x00; x02; x02; x44; x01; x00; x3b
  ]%byte.

Definition png_url : Locator := "file:///tmp/plot.png".
Definition gif_url : Locator := "file:///tmp/plot.gif".
Definition broken_url : Locator := "file:///tmp/truncated.png".
Definition missing_url : Locator := "file:///tmp/missing.png".

Definition not_found : Exn :=
  mkExn "URLError" "<urlopen error [Errno 2] No such file or directory>".
Definition reset : Exn :=
  mkExn "ConnectionResetError" "[Errno 104] Connection reset by peer".
Definition render_error : Exn :=
  mkExn "RuntimeError" "render failed".

(** A site that serves the same whatever the world is. *)
Definition site (url : Locator) : Outcome (Outcome bytes) :=
  if String.eqb url png_url then Return (Return red_png)
  else if String.eqb url gif_url then Return (Return dot_gif)
  else if String.eqb url broken_url then Return (Raise reset)
  else Raise not_found.

Definition fixed_site (w : World) (url : Locator) : Outcome (Outcome bytes) :=
  site url.

(** [file:] locators served from the files on disk. *)
Definition path_of (url : Locator) : string :=
  String.substring 7 (String.length url - 7) url.

Definition from_disk (w : World) (url : Locator) : Outcome (Outcome bytes) :=
  match read_file (path_of url) (storage w) with
  | Some data => Return (Return data)
  | None => Raise not_found
  end.

(** Renderers that answer the same whatever they are given, and leave the
    world alone. *)
Definition renders (o : Outcome Locator)
  : RenderArg -> option (Resource ResourceType) -> World
    -> Outcome Locator * World :=
  fun _ _ w => (o, w).

(** A renderer that only understands JSON text. *)
Definition text_only (a : RenderArg)
    (r : option (Resource ResourceType)) (w : World)
  : Outcome Locator * World :=
  match a with
  | ArgStr _ => (Return png_url, w)
  | ArgDict _ => (Raise render_error, w)
  end.

(** A renderer that answers every call with the same locator, and writes
    the image there only when it is given the mapping. *)
Definition saving_render (a : RenderArg)
    (r : option (Resource ResourceType)) (w : World)
  : Outcome Locator * World :=
  match a with
  | ArgDict _ => (Return png_url, write_file (path_of png_url) red_png w)
  | ArgStr _ => (Return png_url, w)
  end.

(** What passes for a valid PNG with [png_open]. *)
Definition png_ok (data : bytes) : bool :=
  has_png_signature (firstn 16 data) && negb (Nat.ltb (List.length data) 24).

(** The renderer points at the PNG, at the GIF, at a stream that breaks
    while it is read, at nothing; or it fails itself. *)
Definition png_env := env (renders (Return png_url)) fixed_site.
Definition gif_env := env (renders (Return gif_url)) fixed_site.
Definition broken_env := env (renders (Return broken_url)) fixed_site.
Definition missing_env := env (renders (Return missing_url)) fixed_site.
Definition failing_env := env (renders (Raise render_error)) fixed_site.
Definition text_only_env := env text_only fixed_site.

(** The renderer writes to disk, and locators are read from disk. *)
Definition disk_env := env saving_render from_disk.

(** [png_env] with the decoder restricted to PNG. *)
Definition png_only_env : Env ResourceType World :=
  {| json_dumps := dumps;
     native_render := renders (Return png_url);
     net_urlopen := stub_urlopen fixed_site;
     stream_read := stub_read;
     pil_open := png_only_open |}.

Definition circle : PlotDescription :=
  [("type", JStr "circle"); ("data", JObj [("x", JArr [JInt 1; JInt 2])])].

(** Plot descriptions with an integer of 4301 digits. *)
Definition huge : PlotDescription := [("n", JInt (10 ^ 4300))].

Definition huge_circle : PlotDescription :=
  [("type", JStr "circle");
   ("data", JObj [("x", JArr [JInt 1; JInt (- 10 ^ 4300)])])].

Definition cdn : option (Resource ResourceType) :=
  Some (Cdn, "https://cdn.bokeh.org/bokeh/release").

(** Nothing open, the two images on disk, no opener built yet. *)
Definition w0 : World :=
  {| responses := [];
     storage := [("/tmp/plot.png", red_png); ("/tmp/plot.gif", dot_gif)];
     opener_installed := false |}.

(** Nothing open, only a text file on disk. *)
Definition notes : bytes := list_byte_of_string "remember the milk".

Definition w_notes : World :=
  {| responses := [];
     storage := [("/tmp/notes.txt", notes)];
     opener_installed := false |}.

End Stub.

(** * Properties of the bridge *)

Section Properties.

Variables ResourceType World : Type.
Variable E : Env ResourceType World.

(** ** Unfolding a run *)

(** The ways a run can go, by the first step that raises. *)
Lemma run_convert_cases v d r w :
  match render_arg E v d with
  | Raise e => run (convert E v d r) w = mkRun (Raise e) w []
  | Return a =>
      match native_render E a r w with
      | (Raise e, w1) =>
          run (convert E v d r) w = mkRun (Raise e) w1 [CallRender a r]
      | (Return loc, w1) =>
          match net_urlopen E loc w1 with
          | (Raise e, w2) =>
              run (convert E v d r) w =
              mkRun (Raise e) w2 [CallRender a r; CallUrlopen loc]
          | (Return h, w2) =>
              match stream_read E h None w2 with
              | (Raise e, w3) =>
                  run (convert E v d r) w =
                  mkRun (Raise e) w3
                    [CallRender a r; CallUrlopen loc; CallRead h None]
              | (Return data, w3) =>
                  run (convert E v d r) w =
                  mkRun (fst (pil_open E (io_BytesIO data) None w3))
                        (snd (pil_open E (io_BytesIO data) None w3))
                        [CallRender a r; CallUrlopen loc; CallRead h None;
                         CallImageOpen (io_BytesIO data) None]
              end
          end
      end
  end.
Proof.
  assert (P : forall a,
             match native_render E a r w with
             | (Raise e, w1) =>
                 run (png <- render_bokeh E a r ;;
                      response <- urlopen E png ;;
                      data <- read E response None ;;
                      Image_open E (io_BytesIO data) None) w
                 = mkRun (Raise e) w1 [CallRender a r]
             | (Return loc, w1) =>
                 match net_urlopen E loc w1 with
                 | (Raise e, w2) =>
                     run (png <- render_bokeh E a r ;;
                          response <- urlopen E png ;;
                          data <- read E response None ;;
                          Image_open E (io_BytesIO data) None) w
                     = mkRun (Raise e) w2 [CallRender a r; CallUrlopen loc]
                 | (Return h, w2) =>
                     match stream_read E h None w2 with
                     | (Raise e, w3) =>
                         run (png <- render_bokeh E a r ;;
                              response <- urlopen E png ;;
                              data <- read E response None ;;
                              Image_open E (io_BytesIO data) None) w
                         = mkRun (Raise e) w3
                             [CallRender a r; CallUrlopen loc;
                              CallRead h None]
                     | (Return data, w3) =>
                         run (png <- render_bokeh E a r ;;
                              response <- urlopen E png ;;
                              data <- read E response None ;;
                              Image_open E (io_BytesIO data) None) w
                         = mkRun (fst (pil_open E (io_BytesIO data) None w3))
                             (snd (pil_open E (io_BytesIO data) None w3))
                             [CallRender a r; CallUrlopen loc;
                              CallRead h None;
                              CallImageOpen (io_BytesIO data) None]
                     end
                 end
             end).
  { intros a.
    unfold run, bind, render_bokeh, urlopen, read, Image_open, call.
    destruct (native_render E a r w) as [[loc|e] w1]; simpl; [|reflexivity].
    destruct (net_urlopen E loc w1) as [[h|e] w2]; simpl; [|reflexivity].
    destruct (stream_read E h None w2) as [[data|e] w3]; simpl;
      [|reflexivity].
    destruct (pil_open E (io_BytesIO data) None w3) as [o w4]; reflexivity. }
  destruct v; simpl.
  - exact (P (ArgDict d)).
  - unfold bokeh_to_image.
    destruct (json_dumps E d) as [text|e] eqn:Hd.
    + pose proof (P (ArgStr text)) as Pt.
      unfold run, bind, eval in *. simpl in *. exact Pt.
    + unfold run, bind, eval. simpl. reflexivity.
Qed.

(** Once the first argument is evaluated, the run is what follows from the
    renderer's answer to it. *)
Lemma run_after_render v d r w a :
  render_arg E v d = Return a ->
  run (convert E v d r) w = after_render E a r (native_render E a r w).
Proof.
  intros Ha. pose proof (run_convert_cases v d r w) as C. rewrite Ha in C.
  unfold after_render, fetch, decode, bind, urlopen, read, Image_open, call.
  destruct (native_render E a r w) as [[loc|e] w1]; [|exact C].
  destruct (net_urlopen E loc w1) as [[h|e] w2]; simpl; [|exact C].
  destruct (stream_read E h None w2) as [[data|e] w3]; simpl; [|exact C].
  rewrite C. destruct (pil_open E (io_BytesIO data) None w3); reflexivity.
Qed.

(** The calls of a run whose first argument is evaluated. *)
Lemma run_convert_head v d r w a :
  render_arg E v d = Return a ->
  exists rest,
    calls (run (convert E v d r) w) = CallRender a r :: rest
    /\ forallb (fun ev => negb (is_render ev)) rest = true
    /\ length (filter (@is_urlopen _) rest) <= 1.
Proof.
  intros Ha. pose proof (run_convert_cases v d r w) as C. rewrite Ha in C.
  destruct (native_render E a r w) as [[loc|e] w1].
  2: { rewrite C. exists []. simpl. auto. }
  destruct (net_urlopen E loc w1) as [[h|e] w2].
  2: { rewrite C. eexists. simpl. auto. }
  destruct (stream_read E h None w2) as [[data|e] w3];
    rewrite C; eexists; simpl; auto.
Qed.

(** A run that returns went through every step. *)
Lemma convert_returns_inv v d r w im :
  outcome (run (convert E v d r) w) = Return im ->
  exists a loc w1 h w2 data w3 w4,
    render_arg E v d = Return a
    /\ native_render E a r w = (Return loc, w1)
    /\ net_urlopen E loc w1 = (Return h, w2)
    /\ stream_read E h None w2 = (Return data, w3)
    /\ pil_open E (io_BytesIO data) None w3 = (Return im, w4)
    /\ run (convert E v d r) w =
       mkRun (Return im) w4
         [CallRender a r; CallUrlopen loc; CallRead h None;
          CallImageOpen (io_BytesIO data) None].
Proof.
  intros H. pose proof (run_convert_cases v d r w) as C.
  destruct (render_arg E v d) as [a|e] eqn:Ha;
    [|rewrite C in H; discriminate].
  destruct (native_render E a r w) as [[loc|e] w1] eqn:Hn;
    [|rewrite C in H; discriminate].
  destruct (net_urlopen E loc w1) as [[h|e] w2] eqn:Ho;
    [|rewrite C in H; discriminate].
  destruct (stream_read E h None w2) as [[data|e] w3] eqn:Hr;
    [|rewrite C in H; discriminate].
  destruct (pil_open E (io_BytesIO data) None w3) as [o w4] eqn:Hd.
  simpl in C. rewrite C in H. simpl in H. subst o.
  exists a, loc, w1, h, w2, data, w3, w4. repeat split; assumption.
Qed.

(** ** The render call *)

(** C1 (amended). For every plot description [d] and every resource
    reference [r], absent or not: when the first argument of the render
    call evaluates to [a] (always for [export_bokeh_to_png], when
    [json.dumps] returns for [bokeh_to_image]), the renderer is applied to
    [a] and to [r] itself in the caller's world, the run is what follows
    from its answer, and no later call is a render call; when [json.dumps]
    raises, the run raises that exception and calls nothing. *)
Theorem resource_passed_through v d r w :
  match render_arg E v d with
  | Return a =>
      run (convert E v d r) w = after_render E a r (native_render E a r w)
      /\ exists rest,
           calls (run (convert E v d r) w) = CallRender a r :: rest
           /\ forallb (fun ev => negb (is_render ev)) rest = true
  | Raise e => run (convert E v d r) w = mkRun (Raise e) w []
  end.
Proof.
  destruct (render_arg E v d) as [a|e] eqn:Ha.
  - split; [exact (run_after_render v d r w Ha)|].
    destruct (run_convert_head v d r w Ha) as (rest & Hc & Hr & _).
    exists rest. split; assumption.
  - pose proof (run_convert_cases v d r w) as C. rewrite Ha in C. exact C.
Qed.

(** C2 (amended). [export_bokeh_to_png] applies the renderer to the
    mapping itself, for every plot description.  [bokeh_to_image] applies
    it to the text [json.dumps] returns for the plot description, when it
    returns one; when [json.dumps] raises, it raises that exception and
    the renderer is not called.  Each makes at most this one render
    call. *)
Theorem serialization_convention d r w :
  (run (export_bokeh_to_png E d r) w
   = after_render E (ArgDict d) r (native_render E (ArgDict d) r w)
   /\ filter (@is_render _) (calls (run (export_bokeh_to_png E d r) w))
      = [CallRender (ArgDict d) r])
  /\ match json_dumps E d with
     | Return text =>
         run (bokeh_to_image E d r) w
         = after_render E (ArgStr text) r (native_render E (ArgStr text) r w)
         /\ filter (@is_render _) (calls (run (bokeh_to_image E d r) w))
            = [CallRender (ArgStr text) r]
     | Raise e =>
         run (bokeh_to_image E d r) w = mkRun (Raise e) w []
     end.
Proof.
  assert (F : forall (rest : list (Event ResourceType)),
             forallb (fun ev => negb (is_render ev)) rest = true ->
             filter (@is_render _) rest = []).
  { induction rest as [|ev rest IH]; simpl; [reflexivity|].
    intros H. apply andb_prop in H. destruct H as [H1 H2].
    destruct (is_render ev); [discriminate H1|]. exact (IH H2). }
  split.
  - assert (Ha : render_arg E Pywry d = Return (ArgDict d)) by reflexivity.
    split; [exact (run_after_render Pywry d r w Ha)|].
    destruct (run_convert_head Pywry d r w Ha) as (rest & Hc & Hr & _).
    simpl in Hc. rewrite Hc. simpl. rewrite (F rest Hr). reflexivity.
  - destruct (json_dumps E d) as [text|e] eqn:Hd.
    + assert (Ha : render_arg E WryBokehHelper d = Return (ArgStr text))
        by (simpl; rewrite Hd; reflexivity).
      split; [exact (run_after_render WryBokehHelper d r w Ha)|].
      destruct (run_convert_head WryBokehHelper d r w Ha)
        as (rest & Hc & Hr & _).
      simpl in Hc. rewrite Hc. simpl. rewrite (F rest Hr). reflexivity.
    + pose proof (run_convert_cases WryBokehHelper d r w) as C.
      simpl in C. rewrite Hd in C. exact C.
Qed.

(** ** Failures *)

(** C3. If the native render call raises [e], [convert] raises the same
    [e], as a Render Failure; the render call is the only call made, so the
    locator is never opened, nothing is read and nothing is decoded. *)
Theorem render_failure_propagates v d r w a e w1 :
  render_arg E v d = Return a ->
  native_render E a r w = (Raise e, w1) ->
  outcome (run (convert E v d r) w) = Raise e
  /\ failure_of (run (convert E v d r) w) = Some (RenderFailure, e)
  /\ calls (run (convert E v d r) w) = [CallRender a r]
  /\ existsb (fun ev => is_urlopen ev || is_read ev || is_decode ev)
       (calls (run (convert E v d r) w)) = false.
Proof.
  intros Ha H. pose proof (run_convert_cases v d r w) as C.
  rewrite Ha, H in C. rewrite C. repeat split.
Qed.

(** C4. If opening the locator the renderer returned raises [e], or reading
    the opened response raises [e], [convert] raises the same [e], as a
    Fetch Failure, and [Image.open] is never called. *)
Theorem fetch_failure_propagates v d r w a loc w1 e w' :
  render_arg E v d = Return a ->
  native_render E a r w = (Return loc, w1) ->
  (net_urlopen E loc w1 = (Raise e, w')
   \/ exists h w2,
        net_urlopen E loc w1 = (Return h, w2)
        /\ stream_read E h None w2 = (Raise e, w')) ->
  outcome (run (convert E v d r) w) = Raise e
  /\ failure_of (run (convert E v d r) w) = Some (FetchFailure, e)
  /\ world (run (convert E v d r) w) = w'
  /\ existsb (@is_decode _) (calls (run (convert E v d r) w)) = false.
Proof.
  intros Ha Hr Hf. pose proof (run_convert_cases v d r w) as C.
  rewrite Ha, Hr in C. destruct Hf as [Ho | (h & w2 & Ho & Hrd)].
  - rewrite Ho in C. rewrite C. repeat split.
  - rewrite Ho, Hrd in C. rewrite C. repeat split.
Qed.

(** C5 (amended). When render and fetch succeed with bytes [data],
    [convert] gives exactly what [Image.open], called with no restriction
    on the format, gives on an in-memory buffer of [data]: it raises [e],
    as a Decode Failure, if and only if the decoder rejects [data] with
    [e].  With a decoder that rejects exactly the byte strings that are
    not valid PNG, that is: if and only if [data] is not a valid PNG. *)
Theorem decode_failure_iff_decoder_rejects v d r w a loc w1 h w2 data w3 :
  render_arg E v d = Return a ->
  native_render E a r w = (Return loc, w1) ->
  net_urlopen E loc w1 = (Return h, w2) ->
  stream_read E h None w2 = (Return data, w3) ->
  outcome (run (convert E v d r) w)
  = fst (pil_open E (io_BytesIO data) None w3)
  /\ (forall e,
        failure_of (run (convert E v d r) w) = Some (DecodeFailure, e)
        <-> fst (pil_open E (io_BytesIO data) None w3) = Raise e)
  /\ (forall valid_png : bytes -> bool,
        (forall fp w0,
           is_raise (fst (pil_open E fp None w0))
           = negb (valid_png (getvalue fp))) ->
        is_raise (outcome (run (convert E v d r) w)) = negb (valid_png data)).
Proof.
  intros Ha Hr Ho Hrd. pose proof (run_convert_cases v d r w) as C.
  rewrite Ha, Hr, Ho, Hrd in C. rewrite C. simpl.
  split; [reflexivity|]. split.
  - intros e. unfold failure_of. simpl.
    destruct (fst (pil_open E (io_BytesIO data) None w3)) as [im|e'].
    + split; discriminate.
    + split; intros H; inversion H; reflexivity.
  - intros valid_png Hv. rewrite Hv. reflexivity.
Qed.

(** ** Successful runs *)

(** C10. In every run that returns, the locator is opened exactly once,
    and with what the render call returned; the response so obtained is
    read exactly once, to its end; and the image returned is the one
    [Image.open] makes of a buffer whose content is the bytes read, all of
    them and nothing else. *)
Theorem locator_passed_through v d r w im :
  outcome (run (convert E v d r) w) = Return im ->
  exists a loc w1 h w2 data w3 w4,
    render_arg E v d = Return a
    /\ native_render E a r w = (Return loc, w1)
    /\ filter (@is_urlopen _) (calls (run (convert E v d r) w))
       = [CallUrlopen loc]
    /\ net_urlopen E loc w1 = (Return h, w2)
    /\ filter (@is_read _) (calls (run (convert E v d r) w))
       = [CallRead h None]
    /\ stream_read E h None w2 = (Return data, w3)
    /\ filter (@is_decode _) (calls (run (convert E v d r) w))
       = [CallImageOpen (io_BytesIO data) None]
    /\ getvalue (io_BytesIO data) = data
    /\ pil_open E (io_BytesIO data) None w3 = (Return im, w4).
Proof.
  intros H.
  destruct (convert_returns_inv v d r w H)
    as (a & loc & w1 & h & w2 & data & w3 & w4
        & Ha & Hr & Ho & Hrd & Hd & Hrun).
  exists a, loc, w1, h, w2, data, w3, w4. rewrite Hrun. simpl.
  repeat split; assumption.
Qed.

(** ** Frame *)


(** ** Determinism *)


(** ** The two variants *)

(** C9 (amended). Both variants are the render call followed by the same
    pipeline: fetch what the renderer returned, decode what was fetched.
    So whenever [json.dumps] returns a text for [d] and the renderer
    answers on the mapping [d] as it does on that text, with the same
    locator or exception and the same world left behind,
    [export_bokeh_to_png] and [bokeh_to_image] have the same outcome and
    leave the same world, after the same calls past the first. *)
Theorem variants_agree_modulo_serialization d r w text :
  json_dumps E d = Return text ->
  native_render E (ArgDict d) r w = native_render E (ArgStr text) r w ->
  (run (export_bokeh_to_png E d r) w
   = run (png <- render_bokeh E (ArgDict d) r ;;
          data <- fetch E png ;;
          decode E data) w
   /\ run (bokeh_to_image E d r) w
      = run (png <- render_bokeh E (ArgStr text) r ;;
             data <- fetch E png ;;
             decode E data) w)
  /\ outcome (run (export_bokeh_to_png E d r) w)
     = outcome (run (bokeh_to_image E d r) w)
  /\ world (run (export_bokeh_to_png E d r) w)
     = world (run (bokeh_to_image E d r) w)
  /\ tl (calls (run (export_bokeh_to_png E d r) w))
     = tl (calls (run (bokeh_to_image E d r) w)).
Proof.
  intros Hd H. split.
  - split.
    + unfold export_bokeh_to_png, fetch, decode, run, bind,
        render_bokeh, urlopen, read, Image_open, call.
      destruct (native_render E (ArgDict d) r w) as [[loc|e] w1]; simpl;
        [|reflexivity].
      destruct (net_urlopen E loc w1) as [[h|e] w2]; simpl; [|reflexivity].
      destruct (stream_read E h None w2) as [[data|e] w3]; reflexivity.
    + unfold bokeh_to_image, fetch, decode, run, bind, eval,
        render_bokeh, urlopen, read, Image_open, call.
      rewrite Hd. simpl.
      destruct (native_render E (ArgStr text) r w)
        as [[loc|e] w1]; simpl; [|reflexivity].
      destruct (net_urlopen E loc w1) as [[h|e] w2]; simpl; [|reflexivity].
      destruct (stream_read E h None w2) as [[data|e] w3]; reflexivity.
  - pose proof (run_convert_cases Pywry d r w) as C.
    pose proof (run_convert_cases WryBokehHelper d r w) as C'.
    simpl in C, C'. rewrite Hd in C'. rewrite <- H in C'.
    destruct (native_render E (ArgDict d) r w) as [[loc|e] w1];
      [|rewrite C, C'; repeat split].
    destruct (net_urlopen E loc w1) as [[h|e] w2];
      [|rewrite C, C'; repeat split].
    destruct (stream_read E h None w2) as [[data|e] w3];
      rewrite C, C'; repeat split.
Qed.

(** ** What every run looks like, failing or not *)

(** X1. Whatever the collaborators do, the calls of a run are the first
    [n] of: the render call, [urlopen] on one locator, one unbounded
    [read] on one response, [Image.open] with no format restriction on one
    in-memory buffer, for some [n] from 0 to 4; [n] is 0 exactly when
    [json.dumps] raised, and 4 when the run returns.  So the order of the
    calls is fixed, each collaborator is called at most once (nothing is
    retried), and the response is never read in part. *)
Theorem calls_are_a_prefix_of_the_pipeline v d r w :
  (exists n a loc h data,
     n <= 4
     /\ calls (run (convert E v d r) w)
        = firstn n [CallRender a r; CallUrlopen loc;
                    CallRead h None; CallImageOpen (io_BytesIO data) None]
     /\ match render_arg E v d with
        | Return a' => 1 <= n /\ a = a'
        | Raise _ => n = 0
        end
     /\ (n = 4 \/ is_raise (outcome (run (convert E v d r) w)) = true))
  /\ length (filter (@is_render _) (calls (run (convert E v d r) w))) <= 1
  /\ length (filter (@is_urlopen _) (calls (run (convert E v d r) w))) <= 1
  /\ length (filter (@is_read _) (calls (run (convert E v d r) w))) <= 1
  /\ length (filter (@is_decode _) (calls (run (convert E v d r) w))) <= 1.
Proof.
  pose proof (run_convert_cases v d r w) as C.
  destruct (render_arg E v d) as [a|e].
  2: { rewrite C. simpl. split; [|auto 6].
       exists 0, (ArgStr EmptyString), EmptyString, 0, []. simpl.
       repeat split; auto. }
  destruct (native_render E a r w) as [[loc|e] w1].
  2: { rewrite C. simpl. split; [|auto 6].
       exists 1, a, EmptyString, 0, []. simpl. repeat split; auto. }
  destruct (net_urlopen E loc w1) as [[h|e] w2].
  2: { rewrite C. simpl. split; [|auto 6].
       exists 2, a, loc, 0, []. simpl. repeat split; auto. }
  destruct (stream_read E h None w2) as [[data|e] w3].
  2: { rewrite C. simpl. split; [|auto 6].
       exists 3, a, loc, h, []. simpl. repeat split; auto. }
  rewrite C. simpl. split; [|auto 6].
  exists 4, a, loc, h, data. simpl. repeat split; auto.
Qed.

(** X2. A failure is attributed to the right step, and to no other.  A run
    ends in a Render Failure [e] and world [w'] exactly when the renderer
    raised [e] leaving [w']; in a Fetch Failure exactly when the renderer
    returned a locator and opening it, or reading the opened response,
    raised [e] leaving [w']; in a Decode Failure exactly when render, open
    and read returned and [Image.open] raised [e] leaving [w']; and it
    raises [e] having called nothing exactly when [json.dumps] raised [e].
    Every exception a run raises is one of these four, and the world is
    left as the raising step left it: nothing is undone or cleaned up. *)
Theorem failure_attribution_is_exact v d r w e w' :
  ((failure_of (run (convert E v d r) w) = Some (RenderFailure, e)
    /\ world (run (convert E v d r) w) = w')
   <-> exists a,
         render_arg E v d = Return a
         /\ native_render E a r w = (Raise e, w'))
  /\ ((failure_of (run (convert E v d r) w) = Some (FetchFailure, e)
       /\ world (run (convert E v d r) w) = w')
      <-> exists a loc w1,
            render_arg E v d = Return a
            /\ native_render E a r w = (Return loc, w1)
            /\ (net_urlopen E loc w1 = (Raise e, w')
                \/ exists h w2,
                     net_urlopen E loc w1 = (Return h, w2)
                     /\ stream_read E h None w2 = (Raise e, w')))
  /\ ((failure_of (run (convert E v d r) w) = Some (DecodeFailure, e)
       /\ world (run (convert E v d r) w) = w')
      <-> exists a loc w1 h w2 data w3,
            render_arg E v d = Return a
            /\ native_render E a r w = (Return loc, w1)
            /\ net_urlopen E loc w1 = (Return h, w2)
            /\ stream_read E h None w2 = (Return data, w3)
            /\ pil_open E (io_BytesIO data) None w3 = (Raise e, w'))
  /\ (run (convert E v d r) w = mkRun (Raise e) w []
      <-> render_arg E v d = Raise e)
  /\ match outcome (run (convert E v d r) w) with
     | Raise e0 =>
         (exists stage,
            failure_of (run (convert E v d r) w) = Some (stage, e0))
         \/ render_arg E v d = Raise e0
     | Return _ => failure_of (run (convert E v d r) w) = None
     end.
Proof.
  pose proof (run_convert_cases v d r w) as C.
  destruct (render_arg E v d) as [a|e0].
  2: { rewrite C. unfold failure_of. simpl.
       split; [|split; [|split; [|split]]].
       - split; [intros [H _]; discriminate H
                | intros (a & H & _); discriminate H].
       - split; [intros [H _]; discriminate H
                | intros (a & loc & w1 & H & _); discriminate H].
       - split; [intros [H _]; discriminate H
                | intros (a & loc & w1 & h & w2 & data & w3 & H & _);
                  discriminate H].
       - split; intros H; congruence.
       - right. reflexivity. }
  destruct (native_render E a r w) as [[loc|e0] w1] eqn:Hn.
  2: { rewrite C. unfold failure_of. simpl.
       split; [|split; [|split; [|split]]].
       - split.
         + intros [H <-]. injection H as <-. exists a.
           split; [reflexivity|assumption].
         + intros (a0 & H & H'). injection H as <-.
           rewrite Hn in H'. injection H' as <- <-. split; reflexivity.
       - split; [intros [H _]; discriminate H|].
         intros (a0 & loc & w0 & H & H' & _). injection H as <-.
         rewrite Hn in H'. discriminate H'.
       - split; [intros [H _]; discriminate H|].
         intros (a0 & loc & w0 & h & w2 & data & w3 & H & H' & _).
         injection H as <-. rewrite Hn in H'. discriminate H'.
       - split; intros H; discriminate H.
       - left. exists RenderFailure. reflexivity. }
  destruct (net_urlopen E loc w1) as [[h|e0] w2] eqn:Ho.
  2: { rewrite C. unfold failure_of. simpl.
       split; [|split; [|split; [|split]]].
       - split; [intros [H _]; discriminate H|].
         intros (a0 & H & H'). injection H as <-.
         rewrite Hn in H'. discriminate H'.
       - split.
         + intros [H <-]. injection H as <-. exists a, loc, w1.
           split; [reflexivity|]. split; [assumption|]. left. exact Ho.
         + intros (a0 & loc0 & w0 & H & H' & Hf). injection H as <-.
           rewrite Hn in H'. injection H' as <- <-.
           destruct Hf as [Hf|(h & w2' & Hf & _)]; split; congruence.
       - split; [intros [H _]; discriminate H|].
         intros (a0 & loc0 & w0 & h & w2' & data & w3 & H & H' & Hf & _).
         injection H as <-. rewrite Hn in H'. injection H' as <- <-.
         congruence.
       - split; intros H; discriminate H.
       - left. exists FetchFailure. reflexivity. }
  destruct (stream_read E h None w2) as [[data|e0] w3] eqn:Hrd.
  2: { rewrite C. unfold failure_of. simpl.
       split; [|split; [|split; [|split]]].
       - split; [intros [H _]; discriminate H|].
         intros (a0 & H & H'). injection H as <-.
         rewrite Hn in H'. discriminate H'.
       - split.
         + intros [H <-]. injection H as <-. exists a, loc, w1.
           split; [reflexivity|]. split; [assumption|].
           right. exists h, w2. split; assumption.
         + intros (a0 & loc0 & w0 & H & H' & Hf). injection H as <-.
           rewrite Hn in H'. injection H' as <- <-.
           destruct Hf as [Hf|(h0 & w2' & Hf & Hg)]; [congruence|].
           rewrite Ho in Hf. injection Hf as <- <-. split; congruence.
       - split; [intros [H _]; discriminate H|].
         intros (a0 & loc0 & w0 & h0 & w2' & data & w3' & H & H' & Hf & Hg & _).
         injection H as <-. rewrite Hn in H'. injection H' as <- <-.
         rewrite Ho in Hf. injection Hf as <- <-. congruence.
       - split; intros H; discriminate H.
       - left. exists FetchFailure. reflexivity. }
  rewrite C. unfold failure_of. simpl.
  destruct (pil_open E (io_BytesIO data) None w3) as [[im|e0] w4] eqn:Hd;
    simpl; (split; [|split; [|split; [|split]]]).
  - split; [intros [H _]; discriminate H|].
    intros (a0 & H & H'). injection H as <-.
    rewrite Hn in H'. discriminate H'.
  - split; [intros [H _]; discriminate H|].
    intros (a0 & loc0 & w0 & H & H' & Hf). injection H as <-.
    rewrite Hn in H'. injection H' as <- <-.
    destruct Hf as [Hf|(h0 & w2' & Hf & Hg)]; [congruence|].
    rewrite Ho in Hf. injection Hf as <- <-. congruence.
  - split; [intros [H _]; discriminate H|].
    intros (a0 & loc0 & w0 & h0 & w2' & data0 & w3' & H & H' & Hf & Hg & Hh).
    injection H as <-. rewrite Hn in H'. injection H' as <- <-.
    rewrite Ho in Hf. injection Hf as <- <-.
    rewrite Hrd in Hg. injection Hg as <- <-. congruence.
  - split; intros H; discriminate H.
  - reflexivity.
  - split; [intros [H _]; discriminate H|].
    intros (a0 & H & H'). injection H as <-.
    rewrite Hn in H'. discriminate H'.
  - split; [intros [H _]; discriminate H|].
    intros (a0 & loc0 & w0 & H & H' & Hf). injection H as <-.
    rewrite Hn in H'. injection H' as <- <-.
    destruct Hf as [Hf|(h0 & w2' & Hf & Hg)]; [congruence|].
    rewrite Ho in Hf. injection Hf as <- <-. congruence.
  - split.
    + intros [H <-]. injection H as <-.
      exists a, loc, w1, h, w2, data, w3. repeat split; assumption.
    + intros (a0 & loc0 & w0 & h0 & w2' & data0 & w3' & H & H' & Hf & Hg & Hh).
      injection H as <-. rewrite Hn in H'. injection H' as <- <-.
      rewrite Ho in Hf. injection Hf as <- <-.
      rewrite Hrd in Hg. injection Hg as <- <-.
      rewrite Hd in Hh. injection Hh as <- <-. split; reflexivity.
  - split; intros H; discriminate H.
  - left. exists DecodeFailure. reflexivity.
Qed.


(** X4. The plot description and the resource reference reach the renderer
    and nothing else: whichever variants, plot descriptions and resource
    references two runs are given, if the renderer answers both render
    calls alike, the two runs have the same outcome, leave the same world,
    and make the same calls after the first. *)
Theorem inputs_reach_only_the_renderer v v' d d' r r' w a a' :
  render_arg E v d = Return a ->
  render_arg E v' d' = Return a' ->
  native_render E a r w = native_render E a' r' w ->
  outcome (run (convert E v d r) w) = outcome (run (convert E v' d' r') w)
  /\ world (run (convert E v d r) w) = world (run (convert E v' d' r') w)
  /\ tl (calls (run (convert E v d r) w))
     = tl (calls (run (convert E v' d' r') w)).
Proof.
  intros Ha Ha' H. pose proof (run_convert_cases v d r w) as C.
  pose proof (run_convert_cases v' d' r' w) as C'.
  rewrite Ha in C. rewrite Ha' in C'. rewrite <- H in C'.
  destruct (native_render E a r w) as [[loc|e] w1];
    [|rewrite C, C'; repeat split].
  destruct (net_urlopen E loc w1) as [[h|e] w2];
    [|rewrite C, C'; repeat split].
  destruct (stream_read E h None w2) as [[data|e] w3];
    rewrite C, C'; repeat split.
Qed.

End Properties.

(** * The properties on the test doubles *)



(** The PNG-only decoder rejects exactly what [Stub.png_ok] rejects. *)
Lemma png_only_rejects fp formats w :
  is_raise (fst (Stub.png_only_open fp formats w))
  = negb (Stub.png_ok (getvalue fp)).
Proof.
  unfold Stub.png_only_open, Stub.png_ok.
  cbn -[firstn has_png_signature Nat.ltb].
  destruct (has_png_signature (firstn 16 (getvalue fp))); [|reflexivity].
  unfold Stub.png_open.
  destruct (Nat.ltb (List.length (getvalue fp)) 24); reflexivity.
Qed.

(** C1, as stated, fails: on a plot description holding an integer of 4301
    digits [json.dumps] raises, so [bokeh_to_image] raises before the
    render call, and the resource reference is passed to nothing. *)
Lemma no_render_call_when_dumps_raises :
  json_dumps Stub.png_env Stub.huge = Raise Stub.too_many_digits
  /\ run (bokeh_to_image Stub.png_env Stub.huge Stub.cdn) Stub.w0
     = mkRun (Raise Stub.too_many_digits) Stub.w0 []
  /\ ~ (exists a rest,
          calls (run (bokeh_to_image Stub.png_env Stub.huge Stub.cdn) Stub.w0)
          = CallRender a Stub.cdn :: rest).
Proof.
  assert (Hd : json_dumps Stub.png_env Stub.huge = Raise Stub.too_many_digits)
    by (vm_compute; reflexivity).
  assert (Hrun : run (bokeh_to_image Stub.png_env Stub.huge Stub.cdn) Stub.w0
                 = mkRun (Raise Stub.too_many_digits) Stub.w0 []).
  { unfold bokeh_to_image, run, bind, eval. rewrite Hd. reflexivity. }
  split; [exact Hd|]. split; [exact Hrun|].
  intros (a & rest & H). rewrite Hrun in H. discriminate H.
Qed.

(** C2, as stated, fails: on such a plot description
    [export_bokeh_to_png] hands the mapping to the renderer, while
    [bokeh_to_image] raises and hands the renderer nothing, a JSON text
    least of all. *)
Lemma unprintable_plot_is_rendered_by_one_variant_only :
  json_dumps Stub.png_env Stub.huge_circle = Raise Stub.too_many_digits
  /\ filter (@is_render _)
       (calls (run (export_bokeh_to_png Stub.png_env Stub.huge_circle None)
                 Stub.w0))
     = [CallRender (ArgDict Stub.huge_circle) None]
  /\ outcome (run (bokeh_to_image Stub.png_env Stub.huge_circle None) Stub.w0)
     = Raise Stub.too_many_digits
  /\ filter (@is_render _)
       (calls (run (bokeh_to_image Stub.png_env Stub.huge_circle None)
                 Stub.w0))
     = [].
Proof.
  assert (Hd : json_dumps Stub.png_env Stub.huge_circle
               = Raise Stub.too_many_digits)
    by (vm_compute; reflexivity).
  assert (Hrun : run (bokeh_to_image Stub.png_env Stub.huge_circle None)
                   Stub.w0
                 = mkRun (Raise Stub.too_many_digits) Stub.w0 []).
  { unfold bokeh_to_image, run, bind, eval. rewrite Hd. reflexivity. }
  split; [exact Hd|]. split; [reflexivity|].
  rewrite Hrun. split; reflexivity.
Qed.

Lemma render_failure_propagates_witness :
  (render_arg Stub.failing_env Pywry Stub.circle
   = Return (ArgDict Stub.circle)
   /\ native_render Stub.failing_env (ArgDict Stub.circle) Stub.cdn Stub.w0
      = (Raise Stub.render_error, Stub.w0))
  /\ outcome (run (convert Stub.failing_env Pywry Stub.circle Stub.cdn) Stub.w0)
     = Raise Stub.render_error
  /\ failure_of (run (convert Stub.failing_env Pywry Stub.circle Stub.cdn) Stub.w0)
     = Some (RenderFailure, Stub.render_error).
Proof.
  split; [split; reflexivity|].
  pose proof (@render_failure_propagates _ _ Stub.failing_env Pywry
                Stub.circle Stub.cdn Stub.w0 (ArgDict Stub.circle)
                Stub.render_error Stub.w0 eq_refl eq_refl) as (Ho & Hf & _).
  split; assumption.
Defined.

Lemma fetch_failure_propagates_witness :
  (net_urlopen Stub.missing_env Stub.missing_url Stub.w0
   = (Raise Stub.not_found, Stub.install_opener Stub.w0)
   /\ failure_of
        (run (convert Stub.missing_env WryBokehHelper Stub.circle None) Stub.w0)
      = Some (FetchFailure, Stub.not_found))
  /\ (stream_read Stub.broken_env 0 None
        (snd (net_urlopen Stub.broken_env Stub.broken_url Stub.w0))
      = (Raise Stub.reset,
         snd (net_urlopen Stub.broken_env Stub.broken_url Stub.w0))
      /\ failure_of
           (run (convert Stub.broken_env Pywry Stub.circle Stub.cdn) Stub.w0)
         = Some (FetchFailure, Stub.reset)).
Proof.
  split; (split; [reflexivity|]).
  - refine (proj1 (proj2 (@fetch_failure_propagates _ _ Stub.missing_env
              WryBokehHelper Stub.circle None Stub.w0 _ Stub.missing_url
              Stub.w0 Stub.not_found (Stub.install_opener Stub.w0)
              eq_refl eq_refl _))).
    left. reflexivity.
  - refine (proj1 (proj2 (@fetch_failure_propagates _ _ Stub.broken_env
              Pywry Stub.circle Stub.cdn Stub.w0 (ArgDict Stub.circle)
              Stub.broken_url Stub.w0 Stub.reset
              (snd (net_urlopen Stub.broken_env Stub.broken_url Stub.w0))
              eq_refl eq_refl _))).
    right. eexists _, _. split; reflexivity.
Defined.

(** C5, as stated, fails: the renderer points at a GIF, render and fetch
    succeed, the bytes fetched do not even start with the PNG signature,
    and [bokeh_to_image] returns an image instead of raising. *)
Lemma non_png_bytes_are_decoded :
  (exists a,
     render_arg Stub.gif_env WryBokehHelper Stub.circle = Return a
     /\ native_render Stub.gif_env a None Stub.w0
        = (Return Stub.gif_url, Stub.w0))
  /\ outcome (run (fetch Stub.gif_env Stub.gif_url) Stub.w0)
     = Return Stub.dot_gif
  /\ has_png_signature Stub.dot_gif = false
  /\ outcome (run (convert Stub.gif_env WryBokehHelper Stub.circle None) Stub.w0)
     = Return (mkImage "GIF" (1, 1) (io_BytesIO Stub.dot_gif))
  /\ ~ (exists e,
          failure_of
            (run (convert Stub.gif_env WryBokehHelper Stub.circle None) Stub.w0)
          = Some (DecodeFailure, e)).
Proof.
  split; [eexists; split; reflexivity|].
  repeat split; try reflexivity.
  intros [e H]. vm_compute in H. discriminate H.
Qed.

Lemma decode_failure_iff_decoder_rejects_witness :
  (render_arg Stub.png_only_env Pywry Stub.circle
   = Return (ArgDict Stub.circle)
   /\ native_render Stub.png_only_env (ArgDict Stub.circle) Stub.cdn Stub.w0
      = (Return Stub.png_url, Stub.w0)
   /\ net_urlopen Stub.png_only_env Stub.png_url Stub.w0
      = (Return 0,
         Stub.install_opener
           (Stub.set_responses [Stub.mkResponse (Return Stub.red_png) 0]
              Stub.w0))
   /\ stream_read Stub.png_only_env 0 None
        (Stub.install_opener
           (Stub.set_responses [Stub.mkResponse (Return Stub.red_png) 0]
              Stub.w0))
      = (Return Stub.red_png,
         Stub.install_opener
           (Stub.set_responses [Stub.mkResponse (Return Stub.red_png) 75]
              Stub.w0)))
  /\ outcome (run (convert Stub.png_only_env Pywry Stub.circle Stub.cdn) Stub.w0)
     = Return (mkImage "PNG" (10, 10) (io_BytesIO Stub.red_png))
  /\ is_raise
       (outcome
          (run (convert Stub.png_only_env Pywry Stub.circle Stub.cdn) Stub.w0))
     = negb (Stub.png_ok Stub.red_png).
Proof.
  split; [repeat split|].
  pose proof (@decode_failure_iff_decoder_rejects _ _ Stub.png_only_env Pywry
                Stub.circle Stub.cdn Stub.w0 (ArgDict Stub.circle)
                Stub.png_url Stub.w0 0
                (Stub.install_opener
                   (Stub.set_responses
                      [Stub.mkResponse (Return Stub.red_png) 0] Stub.w0))
                Stub.red_png
                (Stub.install_opener
                   (Stub.set_responses
                      [Stub.mkResponse (Return Stub.red_png) 75] Stub.w0))
                eq_refl eq_refl eq_refl eq_refl) as (Ho & _ & Hv).
  split.
  - rewrite Ho. reflexivity.
  - apply Hv. intros fp w. apply png_only_rejects.
Defined.

Lemma locator_passed_through_witness :
  outcome (run (convert Stub.png_env WryBokehHelper Stub.circle None) Stub.w0)
  = Return (mkImage "PNG" (10, 10) (io_BytesIO Stub.red_png))
  /\ exists a loc w1 h w2 data w3 w4,
       render_arg Stub.png_env WryBokehHelper Stub.circle = Return a
       /\ native_render Stub.png_env a None Stub.w0 = (Return loc, w1)
       /\ filter (@is_urlopen _)
            (calls (run (convert Stub.png_env WryBokehHelper Stub.circle None)
                      Stub.w0))
          = [CallUrlopen loc]
       /\ net_urlopen Stub.png_env loc w1 = (Return h, w2)
       /\ filter (@is_read _)
            (calls (run (convert Stub.png_env WryBokehHelper Stub.circle None)
                      Stub.w0))
          = [CallRead h None]
       /\ stream_read Stub.png_env h None w2 = (Return data, w3)
       /\ filter (@is_decode _)
            (calls (run (convert Stub.png_env WryBokehHelper Stub.circle None)
                      Stub.w0))
          = [CallImageOpen (io_BytesIO data) None]
       /\ getvalue (io_BytesIO data) = data
       /\ pil_open Stub.png_env (io_BytesIO data) None w3
          = (Return (mkImage "PNG" (10, 10) (io_BytesIO Stub.red_png)), w4).
Proof.
  split; [reflexivity|].
  apply (@locator_passed_through _ _ Stub.png_env WryBokehHelper Stub.circle
           None Stub.w0). reflexivity.
Defined.




(** C9, as stated, fails: the renderer gives the same locator for the
    mapping as for its JSON text, but writes the image there only for the
    mapping; [export_bokeh_to_png] returns the image and [bokeh_to_image]
    raises. *)
Lemma same_locator_is_not_enough :
  (exists text,
     json_dumps Stub.disk_env Stub.circle = Return text
     /\ fst (native_render Stub.disk_env (ArgDict Stub.circle) Stub.cdn
               Stub.w_notes)
        = Return Stub.png_url
     /\ fst (native_render Stub.disk_env (ArgStr text) Stub.cdn Stub.w_notes)
        = Return Stub.png_url)
  /\ outcome (run (export_bokeh_to_png Stub.disk_env Stub.circle Stub.cdn)
                Stub.w_notes)
     = Return (mkImage "PNG" (10, 10) (io_BytesIO Stub.red_png))
  /\ outcome (run (bokeh_to_image Stub.disk_env Stub.circle Stub.cdn)
                Stub.w_notes)
     = Raise Stub.not_found.
Proof.
  split; [eexists; repeat split; reflexivity|].
  split; reflexivity.
Qed.

Lemma variants_agree_modulo_serialization_witness :
  exists text,
    json_dumps Stub.png_env Stub.circle = Return text
    /\ native_render Stub.png_env (ArgDict Stub.circle) Stub.cdn Stub.w0
       = native_render Stub.png_env (ArgStr text) Stub.cdn Stub.w0
    /\ outcome (run (export_bokeh_to_png Stub.png_env Stub.circle Stub.cdn)
                  Stub.w0)
       = outcome (run (bokeh_to_image Stub.png_env Stub.circle Stub.cdn)
                    Stub.w0).
Proof.
  eexists. split; [reflexivity|]. split; [reflexivity|].
  exact (proj1 (proj2 (@variants_agree_modulo_serialization _ _ Stub.png_env
                         Stub.circle Stub.cdn Stub.w0 _ eq_refl eq_refl))).
Defined.

(** A renderer that only takes JSON text makes [export_bokeh_to_png] fail
    where [bokeh_to_image] returns. *)
Example variants_differ_on_text_only_renderer :
  outcome (run (export_bokeh_to_png Stub.text_only_env Stub.circle None) Stub.w0)
  = Raise Stub.render_error
  /\ outcome (run (bokeh_to_image Stub.text_only_env Stub.circle None) Stub.w0)
     = Return (mkImage "PNG" (10, 10) (io_BytesIO Stub.red_png)).
Proof. split; reflexivity. Qed.

(** The specification's scenario: a circle plot, no resource reference, a
    renderer that points at a 10x10 PNG. *)
Example scenario_ten_by_ten :
  forall v,
    option_map im_size
      (match outcome (run (convert Stub.png_env v Stub.circle None) Stub.w0) with
       | Return im => Some im
       | Raise _ => None
       end)
    = Some (10, 10).
Proof. intros [|]; reflexivity. Qed.

Lemma inputs_reach_only_the_renderer_witness :
  (render_arg Stub.png_env Pywry Stub.circle = Return (ArgDict Stub.circle)
   /\ render_arg Stub.png_env WryBokehHelper [] = Return (ArgStr "{}")
   /\ native_render Stub.png_env (ArgDict Stub.circle) Stub.cdn Stub.w0
      = native_render Stub.png_env (ArgStr "{}") None Stub.w0)
  /\ outcome (run (convert Stub.png_env Pywry Stub.circle Stub.cdn) Stub.w0)
     = outcome (run (convert Stub.png_env WryBokehHelper [] None) Stub.w0)
  /\ tl (calls (run (convert Stub.png_env Pywry Stub.circle Stub.cdn) Stub.w0))
     = tl (calls (run (convert Stub.png_env WryBokehHelper [] None) Stub.w0)).
Proof.
  split; [repeat split|].
  pose proof (@inputs_reach_only_the_renderer _ _ Stub.png_env Pywry
                WryBokehHelper Stub.circle [] Stub.cdn None Stub.w0
                (ArgDict Stub.circle) (ArgStr "{}") eq_refl eq_refl eq_refl)
    as (Ho & _ & Hc).
  split; assumption.
Defined.
